(** * filter.py: sentence-budget filter and two-column record pipeline

    A shallow embedding of [filter_sentences], of the header step and row
    loop of [main], and of [str2bool] from [filter.py], with the properties
    of the sentence-budget filter (selection, direction, saturation, budget),
    of the record pipeline (row validation, per-row filtering, header) and
    of the flag parser stated and proved over it. *)

From Stdlib Require Import List String ZArith Lia Bool Arith.
From Stdlib Require Import Ascii DecimalString DecimalNat.
Import ListNotations.

Local Open Scope string_scope.
Local Open Scope list_scope.
Local Open Scope Z_scope.

(** ** Data model *)

(** What [filter_sentences] observes of a sentence: [len(sentence)], the
    number of tokens, and [str(sentence)], its surface text. *)
Record Sentence : Type := mkSentence {
  len : nat;
  str : string
}.

(** Python's [sep.join(lines)]. *)
Definition join (sep : string) (lines : list string) : string :=
  String.concat sep lines.

(** Sum of [len] over a list of sentences. *)
Fixpoint total_words (l : list Sentence) : Z :=
  match l with
  | [] => 0
  | s :: rest => Z.of_nat (len s) + total_words rest
  end.

(** ** The filter *)

(** The guard of the loop body:
    [word_count == 0 or word_count + num_words <= max_words]. *)
Definition keeps (word_count num_words max_words : Z) : bool :=
  (word_count =? 0) || (word_count + num_words <=? max_words).

(** The [for sentence in sentences] loop, entered with the current values of
    [lines] and [word_count]; [break] leaves the loop with both unchanged. *)
Fixpoint for_loop (sentences : list Sentence) (max_words : Z)
    (lines : list string) (word_count : Z) : list string * Z :=
  match sentences with
  | [] => (lines, word_count)
  | sentence :: rest =>
      let num_words := Z.of_nat (len sentence) in
      if keeps word_count num_words max_words
      then for_loop rest max_words (lines ++ [str sentence])
                    (word_count + num_words)
      else (lines, word_count)
  end.

(** [filter_sentences(sentences, max_words, src)]. *)
Definition filter_sentences (sentences : list Sentence) (max_words : Z)
    (src : bool) : string :=
  let sentences := if src then rev sentences else sentences in
  let lines := fst (for_loop sentences max_words [] 0) in
  let lines := if src then rev lines else lines in
  join " " lines.

(** *** The selection as sentences

    [lines] holds texts only.  The sentences behind it are the first
    [length lines] candidates of the iteration order. *)
Definition candidates (sentences : list Sentence) (src : bool) : list Sentence :=
  if src then rev sentences else sentences.

Definition selection (cands : list Sentence) (max_words : Z) : list Sentence :=
  firstn (List.length (fst (for_loop cands max_words [] 0))) cands.

(** The selection put back in document order, as the final
    [reversed(lines)] does for [src]. *)
Definition selected (sentences : list Sentence) (max_words : Z) (src : bool)
  : list Sentence :=
  let sel := selection (candidates sentences src) max_words in
  if src then rev sel else sel.

(** *** The filter over Python objects

    [filter_sentences] takes any iterable of any objects.  Here what can go
    wrong at run time is explicit: [len(x)] raises [TypeError] for an object
    without a length, [reversed(x)] raises it for a generator, and
    [sep.join(xs)] raises it for an item that is not a string.  A list is
    not changed by being iterated; a generator loses what it has yielded. *)
Inductive pyval : Type :=
| VStr (s : string)
| VObj (olen : option nat) (ostr : string).

(** A sentence as an object: it has a length and a text. *)
Definition of_sentence (s : Sentence) : pyval :=
  VObj (Some (len s)) (str s).

Inductive pyerror : Type :=
| TypeError.

Inductive outcome (A : Type) : Type :=
| Returned (a : A)
| Raised (e : pyerror).

Arguments Returned {A} a.
Arguments Raised {A} e.

Inductive iterable : Type :=
| PyList (items : list pyval)
| PyGen (pending : list pyval).

(** What iterating over [it] yields. *)
Definition items_of (it : iterable) : list pyval :=
  match it with
  | PyList items => items
  | PyGen pending => pending
  end.

(** The iterable after an iteration that left [unread] behind. *)
Definition after_iteration (it : iterable) (unread : list pyval) : iterable :=
  match it with
  | PyList items => PyList items
  | PyGen _ => PyGen unread
  end.

(** [len(x)]. *)
Definition py_len (x : pyval) : outcome nat :=
  match x with
  | VStr s => Returned (String.length s)
  | VObj (Some n) _ => Returned n
  | VObj None _ => Raised TypeError
  end.

(** [str(x)]. *)
Definition py_str (x : pyval) : string :=
  match x with
  | VStr s => s
  | VObj _ text => text
  end.

(** [list(x)]: a new list, and the argument afterwards. *)
Definition py_list (it : iterable) : list pyval * iterable :=
  (items_of it, after_iteration it []).

(** [reversed(x)]: a reverse iterator over a list. *)
Definition py_reversed (it : iterable) : outcome iterable :=
  match it with
  | PyList items => Returned (PyGen (rev items))
  | PyGen _ => Raised TypeError
  end.

Fixpoint strings_of (items : list pyval) : outcome (list string) :=
  match items with
  | [] => Returned []
  | VStr s :: rest =>
      match strings_of rest with
      | Returned strings => Returned (s :: strings)
      | Raised e => Raised e
      end
  | VObj _ _ :: _ => Raised TypeError
  end.

(** [sep.join(x)]. *)
Definition py_join (sep : string) (it : iterable) : outcome string :=
  match strings_of (items_of it) with
  | Returned strings => Returned (join sep strings)
  | Raised e => Raised e
  end.

(** The [for] loop over what is pending of the iterator; the second
    component is what the loop left unread. *)
Fixpoint py_for_loop (pending : list pyval) (max_words : Z)
    (lines : list pyval) (word_count : Z)
  : outcome (list pyval * Z) * list pyval :=
  match pending with
  | [] => (Returned (lines, word_count), [])
  | sentence :: rest =>
      match py_len sentence with
      | Raised e => (Raised e, rest)
      | Returned num_words =>
          if keeps word_count (Z.of_nat num_words) max_words
          then py_for_loop rest max_words
                           (lines ++ [VStr (py_str sentence)])
                           (word_count + Z.of_nat num_words)
          else (Returned (lines, word_count), rest)
      end
  end.

(** [filter_sentences(sentences, max_words, src)] on an iterable: what the
    call returns or raises, and the caller's iterable after the call. *)
Definition py_filter_sentences (sentences : iterable) (max_words : Z)
    (src : bool) : outcome string * iterable :=
  if src then
    let '(copy, argument) := py_list sentences in
    match py_reversed (PyList copy) with
    | Raised e => (Raised e, argument)
    | Returned backwards =>
        match py_for_loop (items_of backwards) max_words [] 0 with
        | (Raised e, _) => (Raised e, argument)
        | (Returned (lines, _), _) =>
            match py_reversed (PyList lines) with
            | Raised e => (Raised e, argument)
            | Returned lines => (py_join " " lines, argument)
            end
        end
    end
  else
    match py_for_loop (items_of sentences) max_words [] 0 with
    | (Raised e, unread) => (Raised e, after_iteration sentences unread)
    | (Returned (lines, _), unread) =>
        (py_join " " (PyList lines), after_iteration sentences unread)
    end.

(** *** The greedy rule in the words of the specification

    The rule as the specification words it: a candidate is appended when the
    selection is still empty, or when the running count plus its word count
    does not exceed [max_words]; otherwise iteration stops. *)
Definition is_empty {A : Type} (l : list A) : bool :=
  match l with
  | [] => true
  | _ :: _ => false
  end.

Fixpoint spec_loop (cands : list Sentence) (max_words : Z)
    (chosen : list string) (running : Z) : list string * Z :=
  match cands with
  | [] => (chosen, running)
  | cand :: rest =>
      if is_empty chosen || (running + Z.of_nat (len cand) <=? max_words)
      then spec_loop rest max_words (chosen ++ [str cand])
                     (running + Z.of_nat (len cand))
      else (chosen, running)
  end.

Definition spec_filter (sentences : list Sentence) (max_words : Z)
    (src : bool) : string :=
  let chosen := fst (spec_loop (candidates sentences src) max_words [] 0) in
  join " " (if src then rev chosen else chosen).

(** [contains out t]: the text [t] occurs in [out]. *)
Definition contains (out t : string) : Prop :=
  exists pre post : string, out = (pre ++ t ++ post)%string.

(** ** The record pipeline *)

(** A row as [csv.reader] yields it. *)
Definition row : Type := list string.

(** The exception raised by the row loop, with its message. *)
Inductive exn : Type :=
| AssertionError (msg : string).

(** ["{}".format(n)] for a column count. *)
Definition format_int (n : nat) : string :=
  NilEmpty.string_of_uint (Nat.to_uint n).

(** The column check of the row loop, [len(row) == 2]. *)
Definition two_cols (r : row) : Prop := List.length r = 2%nat.

Definition col_error (n : nat) : exn :=
  AssertionError ("Expected 2 cols (src, tgt). Received: " ++ format_int n)%string.

Section PipelineDefs.

(** [nlp(text).sents], the external sentence segmenter. *)
Variable nlp : string -> list Sentence.
(** [args.maxWords]. *)
Variable max_words : Z.

(** The record written for a row that passed the column check. *)
Definition filtered_record (r : row) : row :=
  let src := nth 0 r EmptyString in
  let src_filt := filter_sentences (nlp src) max_words true in
  let tgt := nth 1 r EmptyString in
  let tgt_filt := filter_sentences (nlp tgt) max_words false in
  [src_filt; tgt_filt].

(** The [for row in reader] loop.  [written] is what the writer has put out
    so far; the result is the final output and the exception, if one was
    raised. *)
Fixpoint process_rows (rows : list row) (written : list row)
  : list row * option exn :=
  match rows with
  | [] => (written, None)
  | r :: rest =>
      if negb (List.length r =? 2)%nat
      then (written, Some (col_error (List.length r)))
      else process_rows rest (written ++ [filtered_record r])
  end.

(** The header step: with [hasheader], [next(reader, None)] takes the first
    row off the reader and it is written when it is truthy. *)
Definition header_written (hasheader : bool) (rows : list row) : list row :=
  if hasheader then
    match rows with
    | [] => []
    | headers :: _ => if is_empty headers then [] else [headers]
    end
  else [].

Definition data_rows (hasheader : bool) (rows : list row) : list row :=
  if hasheader then tl rows else rows.

(** The body of [main] from the header step on, over the rows of the input
    file. *)
Definition main_rows (hasheader : bool) (rows : list row)
  : list row * option exn :=
  process_rows (data_rows hasheader rows) (header_written hasheader rows).

End PipelineDefs.

(** ** Flag values *)

(** [str.lower] and [str.strip] on ASCII text, which is what flag values
    on the command line are: [lower] maps [A]..[Z] to [a]..[z], and [strip]
    removes from both ends the characters for which [str.isspace] holds
    (tab to carriage return, the four separators 28 to 31, and the space).
    Outside ASCII text Python maps more letters and strips more whitespace;
    that is not covered here. *)
Definition is_upper (c : ascii) : bool :=
  ((65 <=? nat_of_ascii c) && (nat_of_ascii c <=? 90))%nat.

Definition lower_char (c : ascii) : ascii :=
  if is_upper c then ascii_of_nat (nat_of_ascii c + 32) else c.

Fixpoint lower (s : string) : string :=
  match s with
  | EmptyString => EmptyString
  | String c rest => String (lower_char c) (lower rest)
  end.

Definition isspace (c : ascii) : bool :=
  (((9 <=? nat_of_ascii c) && (nat_of_ascii c <=? 13)) ||
   ((28 <=? nat_of_ascii c) && (nat_of_ascii c <=? 32)))%nat.

Fixpoint lstrip (s : string) : string :=
  match s with
  | EmptyString => EmptyString
  | String c rest => if isspace c then lstrip rest else s
  end.

Fixpoint rstrip (s : string) : string :=
  match s with
  | EmptyString => EmptyString
  | String c rest =>
      match rstrip rest with
      | EmptyString => if isspace c then EmptyString else String c EmptyString
      | kept => String c kept
      end
  end.

Definition strip (s : string) : string := lstrip (rstrip s).

(** A text made of whitespace only. *)
Fixpoint all_space (s : string) : bool :=
  match s with
  | EmptyString => true
  | String c rest => isspace c && all_space rest
  end.

(** [val in words]. *)
Definition member (val : string) (words : list string) : bool :=
  existsb (String.eqb val) words.

Definition true_words : list string :=
  ["true"; "t"; "yes"; "y"; "1"; "on"].

Definition false_words : list string :=
  ["false"; "f"; "no"; "n"; "0"; "off"].

(** [str2bool(val)]: the argument is [None] or a text; the result is [True],
    [False], or, when the function falls off its end, [None]. *)
Definition str2bool (val : option string) : option bool :=
  match val with
  | None => Some false
  | Some val =>
      let val := strip (lower val) in
      if member val true_words then Some true
      else if member val false_words then Some false
      else None
  end.

(** ** Sample inputs *)

(** Three sentences of three words each. *)
Definition three_sentences : list Sentence :=
  [mkSentence 3 "The cat sat."; mkSentence 3 "It was happy.";
   mkSentence 3 "Birds flew by."].

(** One sentence far longer than any small budget. *)
Definition long_sentence : list Sentence :=
  [mkSentence 30 "Averylongsentencewithmanywordsexceedingbudget"].

(** A sentence of no tokens and no text. *)
Definition blank_sentence : list Sentence :=
  [mkSentence 0 EmptyString].

(** A sentence of no tokens followed by a long one. *)
Definition zero_then_long : list Sentence :=
  [mkSentence 0 "a"; mkSentence 10 "b"].

(** A long sentence followed by a sentence of no tokens. *)
Definition long_then_zero : list Sentence :=
  [mkSentence 10 "a"; mkSentence 0 "b"].

(** A segmenter that takes each text as one sentence of one word. *)
Definition one_sentence (text : string) : list Sentence :=
  [mkSentence 1 text].

(** ** Word totals *)

Lemma total_words_nonneg (l : list Sentence) : 0 <= total_words l.
Proof.
  induction l as [|s rest IH]; simpl; lia.
Qed.

Lemma total_words_app (l1 l2 : list Sentence) :
  total_words (l1 ++ l2) = total_words l1 + total_words l2.
Proof.
  induction l1 as [|s rest IH]; simpl; [reflexivity | rewrite IH; lia].
Qed.

Lemma total_words_rev (l : list Sentence) :
  total_words (rev l) = total_words l.
Proof.
  induction l as [|s rest IH]; simpl; [reflexivity|].
  rewrite total_words_app, IH. simpl. lia.
Qed.

(** Taking one more candidate adds its word count. *)
Lemma total_words_firstn_S (l : list Sentence) :
  forall (i : nat) (s : Sentence),
    nth_error l i = Some s ->
    total_words (firstn (S i) l) = total_words (firstn i l) + Z.of_nat (len s).
Proof.
  induction l as [|a rest IH]; intros [|i] s H; simpl in H; try discriminate.
  - injection H as ->. simpl. lia.
  - change (firstn (S (S i)) (a :: rest)) with (a :: firstn (S i) rest).
    change (firstn (S i) (a :: rest)) with (a :: firstn i rest).
    cbn [total_words]. rewrite (IH i s H). lia.
Qed.

Lemma keeps_true_iff (word_count num_words max_words : Z) :
  keeps word_count num_words max_words = true <->
  word_count = 0 \/ word_count + num_words <= max_words.
Proof.
  unfold keeps. rewrite orb_true_iff, Z.eqb_eq, Z.leb_le. tauto.
Qed.

Lemma keeps_false_iff (word_count num_words max_words : Z) :
  keeps word_count num_words max_words = false <->
  word_count <> 0 /\ max_words < word_count + num_words.
Proof.
  unfold keeps. rewrite orb_false_iff, Z.eqb_neq, Z.leb_gt. tauto.
Qed.

(** ** Strings and [join] *)

Lemma append_empty_r (s : string) : (s ++ EmptyString)%string = s.
Proof.
  induction s as [|c s IH]; simpl; [reflexivity | rewrite IH; reflexivity].
Qed.

Lemma append_eq_empty (s t : string) :
  (s ++ t)%string = EmptyString -> s = EmptyString /\ t = EmptyString.
Proof.
  destruct s; simpl; intros H; [auto | discriminate].
Qed.

Lemma contains_nonempty (out t : string) :
  contains out t -> t <> EmptyString -> out <> EmptyString.
Proof.
  intros (pre & post & ->) Ht E.
  apply append_eq_empty in E. destruct E as [_ E].
  apply append_eq_empty in E. tauto.
Qed.

Lemma join_single (sep x : string) : join sep [x] = x.
Proof. reflexivity. Qed.

(** The first line of a join stands at its front. *)
Lemma join_cons (sep x : string) (l : list string) :
  exists post : string, join sep (x :: l) = (x ++ post)%string.
Proof.
  destruct l as [|y l]; simpl.
  - exists EmptyString. rewrite append_empty_r. reflexivity.
  - eexists. reflexivity.
Qed.

(** The last line of a join stands at its end. *)
Lemma join_snoc (sep x : string) (l : list string) :
  exists pre : string, join sep (l ++ [x]) = (pre ++ x)%string.
Proof.
  induction l as [|y l [pre IH]].
  - exists EmptyString. reflexivity.
  - assert (E : join sep ((y :: l) ++ [x]) =
                (y ++ sep ++ join sep (l ++ [x]))%string)
      by (destruct l; reflexivity).
    rewrite E, IH.
    exists (y ++ sep ++ pre)%string.
    clear. induction y as [|c y IHy]; simpl.
    + induction sep as [|c sep IHs]; simpl; [reflexivity | rewrite IHs; reflexivity].
    + rewrite IHy. reflexivity.
Qed.

(** ** Basic facts about the loop *)

Section Loop.

Variable max_words : Z.

(** The loop only ever extends [lines] and [word_count]: it returns the
    entry values extended by a prefix of the candidates. *)
Lemma for_loop_prefix (cands : list Sentence) :
  forall lines word_count,
  exists k : nat,
    (k <= List.length cands)%nat /\
    for_loop cands max_words lines word_count =
      (lines ++ map str (firstn k cands),
       word_count + total_words (firstn k cands)).
Proof.
  induction cands as [|s rest IH]; intros lines wc; simpl.
  - exists 0%nat. simpl. rewrite app_nil_r, Z.add_0_r. auto.
  - destruct (keeps wc (Z.of_nat (len s)) max_words).
    + destruct (IH (lines ++ [str s]) (wc + Z.of_nat (len s))) as (k & Hk & E).
      exists (S k). split; [lia|].
      rewrite E. simpl. rewrite <- app_assoc. simpl.
      f_equal. lia.
    + exists 0%nat. simpl. rewrite app_nil_r, Z.add_0_r. split; [lia|auto].
Qed.

(** The greedy rule, read off the loop: the candidates taken are the first
    [k]; each of them passed the guard at the word count reached before it,
    and the candidate after them, if there is one, failed it. *)
Lemma for_loop_rule (cands : list Sentence) :
  forall lines word_count,
  exists k : nat,
    (k <= List.length cands)%nat /\
    for_loop cands max_words lines word_count =
      (lines ++ map str (firstn k cands),
       word_count + total_words (firstn k cands)) /\
    (forall i s, (i < k)%nat -> nth_error cands i = Some s ->
       keeps (word_count + total_words (firstn i cands))
             (Z.of_nat (len s)) max_words = true) /\
    (forall s, nth_error cands k = Some s ->
       keeps (word_count + total_words (firstn k cands))
             (Z.of_nat (len s)) max_words = false).
Proof.
  induction cands as [|c rest IH]; intros lines wc.
  - exists 0%nat. simpl. rewrite app_nil_r, Z.add_0_r.
    repeat split; auto; intros; try lia; discriminate.
  - simpl for_loop.
    destruct (keeps wc (Z.of_nat (len c)) max_words) eqn:G.
    + destruct (IH (lines ++ [str c]) (wc + Z.of_nat (len c)))
        as (k & Hk & E & Htaken & Hnext).
      exists (S k). split; [simpl; lia|]. split; [|split].
      * rewrite E. simpl. rewrite <- app_assoc. simpl. f_equal. lia.
      * intros [|i] s Hi Hs; simpl in Hs.
        -- injection Hs as <-. simpl. rewrite Z.add_0_r. exact G.
        -- cbn [firstn total_words]. rewrite Z.add_assoc.
           apply Htaken; [lia | exact Hs].
      * intros s Hs. simpl in Hs. cbn [firstn total_words].
        rewrite Z.add_assoc. apply Hnext. exact Hs.
    + exists 0%nat. simpl. rewrite app_nil_r, Z.add_0_r.
      split; [lia|]. split; [reflexivity|]. split.
      * intros i s Hi. lia.
      * intros s Hs. injection Hs as <-. exact G.
Qed.

Lemma for_loop_length (cands : list Sentence) :
  (List.length (fst (for_loop cands max_words [] 0)) <= List.length cands)%nat.
Proof.
  destruct (for_loop_prefix cands [] 0) as (k & Hk & E).
  rewrite E. simpl. rewrite length_map, length_firstn. lia.
Qed.

(** [lines] is the text of the selection and the final [word_count] is its
    word total. *)
Lemma for_loop_selection (cands : list Sentence) :
  for_loop cands max_words [] 0 =
    (map str (selection cands max_words),
     total_words (selection cands max_words)).
Proof.
  unfold selection.
  destruct (for_loop_prefix cands [] 0) as (k & Hk & E).
  rewrite E. simpl.
  rewrite length_map, length_firstn, Nat.min_l by lia. reflexivity.
Qed.

(** The greedy rule for the selection made from the entry state
    [lines = []], [word_count = 0]. *)
Lemma selection_rule (cands : list Sentence) :
  exists k : nat,
    (k <= List.length cands)%nat /\
    selection cands max_words = firstn k cands /\
    (forall i s, (i < k)%nat -> nth_error cands i = Some s ->
       total_words (firstn i cands) = 0 \/
       total_words (firstn i cands) + Z.of_nat (len s) <= max_words) /\
    (forall s, nth_error cands k = Some s ->
       total_words (firstn k cands) <> 0 /\
       max_words < total_words (firstn k cands) + Z.of_nat (len s)).
Proof.
  destruct (for_loop_rule cands [] 0) as (k & Hk & E & Htaken & Hnext).
  exists k. split; [exact Hk|]. split; [|split].
  - unfold selection. rewrite E. simpl.
    rewrite length_map, length_firstn, Nat.min_l by lia. reflexivity.
  - intros i s Hi Hs. apply keeps_true_iff. apply (Htaken i s Hi Hs).
  - intros s Hs. apply keeps_false_iff. apply (Hnext s Hs).
Qed.

(** The first candidate is always taken: the loop is entered with
    [word_count = 0]. *)
Lemma selection_head (c : Sentence) (rest : list Sentence) :
  exists more : list Sentence,
    selection (c :: rest) max_words = c :: more /\
    exists k : nat, more = firstn k rest.
Proof.
  unfold selection. cbn [for_loop].
  replace (keeps 0 (Z.of_nat (len c)) max_words) with true by reflexivity.
  destruct (for_loop_prefix rest ([] ++ [str c]) (0 + Z.of_nat (len c)))
    as (k & Hk & E).
  rewrite E. simpl fst. simpl List.length.
  eexists. split; [reflexivity|]. eexists. reflexivity.
Qed.

(** When everything fits, the loop takes every candidate. *)
Lemma for_loop_saturated (cands : list Sentence) :
  forall lines word_count,
    word_count + total_words cands <= max_words ->
    for_loop cands max_words lines word_count =
      (lines ++ map str cands, word_count + total_words cands).
Proof.
  induction cands as [|c rest IH]; intros lines wc H; simpl.
  - rewrite app_nil_r, Z.add_0_r. reflexivity.
  - simpl in H. pose proof (total_words_nonneg rest) as Hrest.
    replace (keeps wc (Z.of_nat (len c)) max_words) with true
      by (symmetry; apply keeps_true_iff; lia).
    rewrite IH by lia. rewrite <- app_assoc. simpl. f_equal. lia.
Qed.

End Loop.

(** The output is the join of the texts of [selected], in document order. *)
Lemma filter_sentences_selected (sentences : list Sentence) (max_words : Z)
    (src : bool) :
  filter_sentences sentences max_words src =
    join " " (map str (selected sentences max_words src)).
Proof.
  unfold filter_sentences, selected, candidates.
  destruct src; rewrite for_loop_selection; simpl; [rewrite map_rev|]; reflexivity.
Qed.

(** ** Theorems *)

(** C6: for every budget [max_words] and either direction, the filter applied
    to the empty sentence sequence returns the empty string. *)
Theorem filter_sentences_empty (max_words : Z) (src : bool) :
  filter_sentences [] max_words src = EmptyString.
Proof.
  destruct src; reflexivity.
Qed.

(** ** The selection is never empty *)

(** C1, as amended: for every non-empty sentence sequence, every [max_words]
    and either direction, the selection is not empty and the returned string
    contains the text of a selected sentence of the input; the returned
    string is non-empty whenever that text is non-empty; and a sequence of a
    single sentence is returned as that sentence's full text, whatever its
    word count. *)
Theorem filter_sentences_keeps_one (sentences : list Sentence)
    (max_words : Z) (src : bool) :
  sentences <> [] ->
  selected sentences max_words src <> [] /\
  (exists s : Sentence,
      In s sentences /\ In s (selected sentences max_words src) /\
      contains (filter_sentences sentences max_words src) (str s) /\
      (str s <> EmptyString ->
       filter_sentences sentences max_words src <> EmptyString)) /\
  (forall s : Sentence,
      sentences = [s] -> filter_sentences sentences max_words src = str s).
Proof.
  intros Hne.
  assert (Hsome : exists s : Sentence,
      In s sentences /\ In s (selected sentences max_words src) /\
      contains (filter_sentences sentences max_words src) (str s)).
  { rewrite filter_sentences_selected. unfold selected, candidates.
    destruct src.
    - destruct (rev sentences) as [|c rest] eqn:R.
      + apply (f_equal (@rev Sentence)) in R.
        rewrite rev_involutive in R. contradiction.
      + destruct (selection_head max_words c rest) as (more & -> & _).
        exists c. split; [|split].
        * apply in_rev. rewrite R. left. reflexivity.
        * apply in_rev. rewrite rev_involutive. left. reflexivity.
        * simpl rev. rewrite map_app. simpl map.
          destruct (join_snoc " " (str c) (map str (rev more))) as [pre E].
          exists pre, EmptyString. rewrite E, append_empty_r. reflexivity.
    - destruct sentences as [|c rest]; [contradiction|].
      destruct (selection_head max_words c rest) as (more & -> & _).
      exists c. split; [left; reflexivity|]. split; [left; reflexivity|].
      simpl map.
      destruct (join_cons " " (str c) (map str more)) as [post E].
      exists EmptyString, post. rewrite E. reflexivity. }
  destruct Hsome as (s & Hin & Hsel & Hc).
  split; [|split].
  - intros E. rewrite E in Hsel. contradiction.
  - exists s. repeat split; auto.
    intros Ht. apply (contains_nonempty _ _ Hc Ht).
  - intros s1 ->. destruct src; reflexivity.
Qed.

(** ** Direction and order *)

(** C4: for every sentence sequence and budget, with [src] (retain the tail)
    the selected sentences are a contiguous suffix of the sequence, without
    [src] (retain the head) a contiguous prefix, and in both directions the
    output is the join of the selected texts in document order. *)
Theorem direction_and_order (sentences : list Sentence) (max_words : Z) :
  (exists dropped : list Sentence,
      sentences = dropped ++ selected sentences max_words true) /\
  (exists dropped : list Sentence,
      sentences = selected sentences max_words false ++ dropped) /\
  (forall src : bool,
      filter_sentences sentences max_words src =
        join " " (map str (selected sentences max_words src))).
Proof.
  split; [|split].
  - unfold selected, candidates, selection.
    set (k := List.length _).
    exists (rev (skipn k (rev sentences))).
    rewrite <- rev_app_distr, firstn_skipn, rev_involutive. reflexivity.
  - unfold selected, candidates, selection.
    set (k := List.length _).
    exists (skipn k sentences). rewrite firstn_skipn. reflexivity.
  - intros src. apply filter_sentences_selected.
Qed.

(** ** Saturation *)

(** C5: for every sentence sequence and either direction, if [max_words] is
    at least the total word count of all sentences, the output is the join
    of every sentence's text with a single space, in the original order. *)
Theorem filter_sentences_saturated (sentences : list Sentence)
    (max_words : Z) (src : bool) :
  total_words sentences <= max_words ->
  filter_sentences sentences max_words src = join " " (map str sentences).
Proof.
  intros H. unfold filter_sentences. destruct src.
  - rewrite for_loop_saturated by (rewrite total_words_rev; lia).
    simpl. rewrite map_rev, rev_involutive. reflexivity.
  - rewrite for_loop_saturated by lia. reflexivity.
Qed.

(** ** The greedy rule *)

(** C2, as amended: for every sentence sequence, budget and direction, the
    lines kept are the texts of the first [k] candidates of the iteration
    order, where every candidate taken met the loop's guard (the running
    word count was zero, or the running count plus the candidate's word
    count did not exceed [max_words]) and the candidate after them, if any,
    did not meet it; no later candidate is taken. *)
Theorem greedy_rule (sentences : list Sentence) (max_words : Z) (src : bool) :
  let cands := candidates sentences src in
  exists k : nat,
    (k <= List.length cands)%nat /\
    fst (for_loop cands max_words [] 0) = map str (firstn k cands) /\
    filter_sentences sentences max_words src =
      join " " (map str (if src then rev (firstn k cands) else firstn k cands)) /\
    (forall i s, (i < k)%nat -> nth_error cands i = Some s ->
       total_words (firstn i cands) = 0 \/
       total_words (firstn i cands) + Z.of_nat (len s) <= max_words) /\
    (forall s, nth_error cands k = Some s ->
       total_words (firstn k cands) <> 0 /\
       max_words < total_words (firstn k cands) + Z.of_nat (len s)).
Proof.
  intros cands.
  destruct (selection_rule max_words cands) as (k & Hk & Hsel & Htaken & Hnext).
  exists k. split; [exact Hk|]. split; [|split; [|split]].
  - rewrite for_loop_selection, Hsel. reflexivity.
  - rewrite filter_sentences_selected. unfold selected. fold cands.
    rewrite Hsel. reflexivity.
  - exact Htaken.
  - exact Hnext.
Qed.

(** With sentences of at least one word each, the loop's guard and the
    specification's wording of it make the same loop: then the running word
    count is zero exactly when nothing has been selected. *)
Lemma for_loop_spec_loop (max_words : Z) (cands : list Sentence) :
  Forall (fun s => (0 < len s)%nat) cands ->
  forall lines word_count,
    0 <= word_count ->
    is_empty lines = (word_count =? 0) ->
    for_loop cands max_words lines word_count =
    spec_loop cands max_words lines word_count.
Proof.
  induction 1 as [|c rest Hc Hrest IH]; intros lines wc Hwc Hinv; simpl.
  - reflexivity.
  - unfold keeps. rewrite <- Hinv.
    destruct (is_empty lines || (wc + Z.of_nat (len c) <=? max_words)).
    + apply IH; [lia|].
      replace (wc + Z.of_nat (len c) =? 0) with false
        by (symmetry; apply Z.eqb_neq; lia).
      destruct lines; reflexivity.
    + reflexivity.
Qed.

Lemma filter_sentences_spec_filter (sentences : list Sentence)
    (max_words : Z) (src : bool) :
  Forall (fun s => (0 < len s)%nat) sentences ->
  filter_sentences sentences max_words src =
  spec_filter sentences max_words src.
Proof.
  intros H. unfold filter_sentences, spec_filter, candidates.
  destruct src.
  - rewrite for_loop_spec_loop; auto using Forall_rev; lia.
  - rewrite for_loop_spec_loop; auto; lia.
Qed.

(** ** The budget *)

Lemma nth_error_in_range {A : Type} (l : list A) (i : nat) :
  (i < List.length l)%nat -> exists x : A, nth_error l i = Some x.
Proof.
  intros H. destruct (nth_error l i) as [x|] eqn:E.
  - exists x. reflexivity.
  - apply nth_error_None in E. lia.
Qed.

Lemma total_words_firstn_pos (l : list Sentence) (i : nat) :
  Forall (fun s => (0 < len s)%nat) l ->
  (0 < i)%nat -> (0 < List.length l)%nat ->
  0 < total_words (firstn i l).
Proof.
  intros H Hi Hl. destruct l as [|c rest]; [simpl in Hl; lia|].
  destruct i as [|i]; [lia|]. inversion H; subst.
  cbn [firstn total_words].
  pose proof (total_words_nonneg (firstn i rest)). lia.
Qed.

(** C3, as amended: for every sentence sequence, budget [max_words] (not
    negative, as the filter's contract has it) and either direction, if the
    selection [s[1..k]], numbered in the order in which the loop selected
    the sentences, has more than one sentence, then the word count of
    [s[1..k-1]] is at most [max_words]. *)
Theorem budget_before_last (sentences : list Sentence) (max_words : Z)
    (src : bool) :
  0 <= max_words ->
  let sel := selection (candidates sentences src) max_words in
  (1 < List.length sel)%nat ->
  total_words (removelast sel) <= max_words.
Proof.
  intros Hmw sel. subst sel.
  destruct (selection_rule max_words (candidates sentences src))
    as (k & Hk & -> & Htaken & _).
  rewrite length_firstn, Nat.min_l by exact Hk. intros Hlen.
  destruct k as [|k]; [lia|].
  rewrite removelast_firstn by lia.
  destruct (nth_error_in_range (candidates sentences src) k) as [s Hs]; [lia|].
  destruct (Htaken k s) as [E | E]; [lia | exact Hs | lia | lia].
Qed.

(** C10: for every sentence sequence in which every sentence has a positive
    word count, every [max_words] and either direction, if the selection has
    more than one sentence then the word count of all selected sentences,
    the last included, is at most [max_words]. *)
Theorem budget_all_positive (sentences : list Sentence) (max_words : Z)
    (src : bool) :
  Forall (fun s => (0 < len s)%nat) sentences ->
  (1 < List.length (selected sentences max_words src))%nat ->
  total_words (selected sentences max_words src) <= max_words.
Proof.
  intros Hpos.
  assert (Hcands : Forall (fun s => (0 < len s)%nat) (candidates sentences src))
    by (unfold candidates; destruct src; auto using Forall_rev).
  assert (E : total_words (selected sentences max_words src) =
              total_words (selection (candidates sentences src) max_words) /\
              List.length (selected sentences max_words src) =
              List.length (selection (candidates sentences src) max_words)).
  { unfold selected. destruct src; [|auto].
    rewrite total_words_rev, length_rev. auto. }
  destruct E as [-> ->].
  destruct (selection_rule max_words (candidates sentences src))
    as (k & Hk & -> & Htaken & _).
  rewrite length_firstn, Nat.min_l by exact Hk. intros Hlen.
  destruct k as [|k]; [lia|].
  destruct (nth_error_in_range (candidates sentences src) k) as [s Hs]; [lia|].
  rewrite (total_words_firstn_S _ k s Hs).
  pose proof (total_words_firstn_pos (candidates sentences src) k Hcands).
  destruct (Htaken k s) as [E | E]; [lia | exact Hs | lia | lia].
Qed.

(** ** Errors and effects of the filter *)

Lemma strings_of_VStr (lines : list string) :
  strings_of (map VStr lines) = Returned lines.
Proof.
  induction lines as [|s lines IH]; simpl; [reflexivity|].
  rewrite IH. reflexivity.
Qed.

(** On sentences the loop over objects raises nothing and does what
    [for_loop] does; it leaves unread what comes after the sentence that
    made it stop. *)
Lemma py_for_loop_sentences (max_words : Z) (cands : list Sentence) :
  forall (lines : list string) (word_count : Z),
    py_for_loop (map of_sentence cands) max_words (map VStr lines) word_count =
      (Returned (map VStr (fst (for_loop cands max_words lines word_count)),
                 snd (for_loop cands max_words lines word_count)),
       map of_sentence
         (skipn (S (List.length
                      (fst (for_loop cands max_words lines word_count))
                    - List.length lines)) cands)).
Proof.
  induction cands as [|c rest IH]; intros lines wc.
  - simpl. reflexivity.
  - cbn [map py_for_loop for_loop of_sentence py_len py_str].
    destruct (keeps wc (Z.of_nat (len c)) max_words) eqn:G.
    + change [VStr (str c)] with (map VStr [str c]).
      rewrite <- map_app, IH.
      destruct (for_loop_prefix max_words rest (lines ++ [str c])
                  (wc + Z.of_nat (len c))) as (k & _ & E).
      rewrite E. cbn [fst snd].
      rewrite !length_app, length_map. cbn [List.length].
      replace (S (List.length lines + 1 + List.length (firstn k rest)
                  - List.length lines))
        with (S (S (List.length lines + 1 + List.length (firstn k rest)
                    - (List.length lines + 1)))) by lia.
      reflexivity.
    + cbn [fst snd]. rewrite Nat.sub_diag. reflexivity.
Qed.

Lemma py_for_loop_entry (max_words : Z) (cands : list Sentence) :
  py_for_loop (map of_sentence cands) max_words [] 0 =
    (Returned (map VStr (fst (for_loop cands max_words [] 0)),
               snd (for_loop cands max_words [] 0)),
     map of_sentence
       (skipn (S (List.length (fst (for_loop cands max_words [] 0)))) cands)).
Proof.
  pose proof (py_for_loop_sentences max_words cands [] 0) as H.
  cbn [map List.length] in H. rewrite Nat.sub_0_r in H. exact H.
Qed.

(** C9, as amended: for every sequence of sentences (the empty one
    included), handed over as a list or as a generator, every [max_words]
    and either direction, the call raises no error and returns the string
    that [filter_sentences] computes from the sentences, [max_words] and
    the direction alone, so that equal inputs give equal outputs.  A list
    argument is left as it was.  A generator argument is consumed: all of
    it with [src], and without [src] through the sentence after the last
    one selected. *)
Theorem filter_sentences_runs (sentences : list Sentence) (max_words : Z)
    (src : bool) :
  py_filter_sentences (PyList (map of_sentence sentences)) max_words src =
    (Returned (filter_sentences sentences max_words src),
     PyList (map of_sentence sentences)) /\
  py_filter_sentences (PyGen (map of_sentence sentences)) max_words src =
    (Returned (filter_sentences sentences max_words src),
     PyGen (if src then []
            else map of_sentence
                   (skipn (S (List.length (selected sentences max_words false)))
                          sentences))).
Proof.
  assert (Hlen : List.length (selected sentences max_words false) =
                 List.length (fst (for_loop sentences max_words [] 0))).
  { unfold selected, candidates. rewrite for_loop_selection.
    simpl. rewrite length_map. reflexivity. }
  unfold py_filter_sentences, filter_sentences. destruct src.
  - cbn [py_list items_of after_iteration py_reversed].
    rewrite <- map_rev, py_for_loop_entry.
    cbn [py_reversed]. unfold py_join. cbn [items_of].
    rewrite <- map_rev, strings_of_VStr.
    split; reflexivity.
  - cbn [items_of after_iteration].
    rewrite py_for_loop_entry.
    unfold py_join. cbn [items_of]. rewrite strings_of_VStr, Hlen.
    split; reflexivity.
Qed.

(** ** The record pipeline *)

Section Pipeline.

Variable nlp : string -> list Sentence.
Variable max_words : Z.

(** Rows that pass the column check are each answered by one record,
    appended to the output in turn. *)
Lemma process_rows_valid (pre : list row) :
  forall (rest written : list row),
    Forall two_cols pre ->
    process_rows nlp max_words (pre ++ rest) written =
    process_rows nlp max_words rest
      (written ++ map (filtered_record nlp max_words) pre).
Proof.
  induction pre as [|r pre IH]; intros rest written H; simpl.
  - rewrite app_nil_r. reflexivity.
  - inversion H as [|? ? Hr Hpre]; subst.
    unfold two_cols in Hr. rewrite Hr. simpl.
    rewrite IH by exact Hpre. rewrite <- app_assoc. reflexivity.
Qed.

(** The loop never takes back what has been written. *)
Lemma process_rows_extends (rows : list row) :
  forall written : list row,
  exists out : list row,
    fst (process_rows nlp max_words rows written) = written ++ out.
Proof.
  induction rows as [|r rows IH]; intros written; simpl.
  - exists []. rewrite app_nil_r. reflexivity.
  - destruct (negb (List.length r =? 2)%nat).
    + exists []. rewrite app_nil_r. reflexivity.
    + destruct (IH (written ++ [filtered_record nlp max_words r])) as [out E].
      exists (filtered_record nlp max_words r :: out).
      rewrite E, <- app_assoc. reflexivity.
Qed.

(** An error is only ever raised for a row that fails the column check. *)
Lemma process_rows_error (rows : list row) :
  forall (written : list row) (e : exn),
    snd (process_rows nlp max_words rows written) = Some e ->
    exists bad : row,
      In bad rows /\ ~ two_cols bad /\ e = col_error (List.length bad).
Proof.
  induction rows as [|r rows IH]; intros written e; simpl.
  - discriminate.
  - destruct (List.length r =? 2)%nat eqn:C; simpl.
    + intros H. destruct (IH _ _ H) as (bad & Hin & Hbad & ->).
      exists bad. auto.
    + intros H. injection H as <-. apply Nat.eqb_neq in C.
      exists r. auto.
Qed.

(** C7: a data row whose column count is not 2, reached after rows that all
    have 2 columns, makes the pipeline raise the error whose message gives
    the row's column count; the output then holds the header, if written,
    and one record per earlier row, and nothing for the offending row.  An
    error is only ever raised for a row whose column count is not 2, and
    when every data row has 2 columns no error is raised and every row is
    answered by its record. *)
Theorem row_validation (hasheader : bool) (rows : list row) :
  (forall (pre : list row) (bad : row) (post : list row),
      data_rows hasheader rows = pre ++ bad :: post ->
      Forall two_cols pre ->
      List.length bad <> 2%nat ->
      main_rows nlp max_words hasheader rows =
        (header_written hasheader rows ++
           map (filtered_record nlp max_words) pre,
         Some (AssertionError
                 ("Expected 2 cols (src, tgt). Received: " ++
                  format_int (List.length bad))%string))) /\
  (forall e : exn,
      snd (main_rows nlp max_words hasheader rows) = Some e ->
      exists bad : row,
        In bad (data_rows hasheader rows) /\ ~ two_cols bad /\
        e = col_error (List.length bad)) /\
  (Forall two_cols (data_rows hasheader rows) ->
   main_rows nlp max_words hasheader rows =
     (header_written hasheader rows ++
        map (filtered_record nlp max_words) (data_rows hasheader rows),
      None)).
Proof.
  unfold main_rows. split; [|split].
  - intros pre bad post E Hpre Hbad. rewrite E.
    rewrite process_rows_valid by exact Hpre. simpl.
    apply Nat.eqb_neq in Hbad. rewrite Hbad. reflexivity.
  - intros e. apply process_rows_error.
  - intros H.
    rewrite <- (app_nil_r (data_rows hasheader rows)) at 1.
    rewrite process_rows_valid by exact H. reflexivity.
Qed.

(** C8: a data row [[src; tgt]], reached after rows that all have 2 columns,
    is answered by the record made of the segmented source filtered with
    [src=True] and the segmented target filtered with [src=False], both
    under the configured [max_words]; the record stands in the output at the
    row's own position, after the header if one was written. *)
Theorem row_filtering (hasheader : bool) (rows pre : list row)
    (src tgt : string) (post : list row) :
  data_rows hasheader rows = pre ++ [src; tgt] :: post ->
  Forall two_cols pre ->
  nth_error (fst (main_rows nlp max_words hasheader rows))
            (List.length (header_written hasheader rows) + List.length pre) =
    Some [filter_sentences (nlp src) max_words true;
          filter_sentences (nlp tgt) max_words false].
Proof.
  intros E Hpre. unfold main_rows. rewrite E.
  rewrite process_rows_valid by exact Hpre. simpl.
  destruct (process_rows_extends post
              ((header_written hasheader rows ++
                  map (filtered_record nlp max_words) pre) ++
               [filtered_record nlp max_words [src; tgt]])) as [out ->].
  rewrite <- app_assoc.
  rewrite nth_error_app2
    by (rewrite length_app, length_map; lia).
  rewrite length_app, length_map, Nat.sub_diag. reflexivity.
Qed.

End Pipeline.

(** ** The scenarios of the specification *)

Example head_within_budget :
  filter_sentences three_sentences 5 false = "The cat sat.".
Proof. reflexivity. Qed.

Example tail_within_budget :
  filter_sentences three_sentences 5 true = "Birds flew by.".
Proof. reflexivity. Qed.

Example tail_two_sentences :
  filter_sentences three_sentences 6 true = "It was happy. Birds flew by.".
Proof. reflexivity. Qed.

Example oversized_single_sentence :
  filter_sentences long_sentence 5 false =
    "Averylongsentencewithmanywordsexceedingbudget" /\
  filter_sentences long_sentence 5 true =
    "Averylongsentencewithmanywordsexceedingbudget".
Proof. split; reflexivity. Qed.

Example everything_fits :
  filter_sentences three_sentences 20 true =
    "The cat sat. It was happy. Birds flew by.".
Proof. reflexivity. Qed.

Example one_field_row :
  main_rows one_sentence 5 false [["only one field"]] =
    ([], Some (AssertionError "Expected 2 cols (src, tgt). Received: 1")).
Proof. reflexivity. Qed.

Example header_passes_through :
  main_rows one_sentence 5 true [["source"; "target"; "note"]; ["a"; "b"]] =
    ([["source"; "target"; "note"]; ["a"; "b"]], None).
Proof. reflexivity. Qed.

(** ** Instances and counterexamples *)

(** C1 as stated fails for a sentence without text: the input is not empty
    and the budget is not negative, yet the string returned is empty. *)
Lemma nonempty_output_counterexample :
  blank_sentence <> [] /\ 0 <= 5 /\
  filter_sentences blank_sentence 5 false = EmptyString /\
  filter_sentences blank_sentence 5 true = EmptyString.
Proof.
  split; [discriminate|]. split; [lia|]. split; reflexivity.
Qed.

Lemma filter_sentences_keeps_one_witness :
  three_sentences <> [] /\
  selected three_sentences 5 true <> [] /\
  filter_sentences three_sentences 5 true <> EmptyString.
Proof.
  assert (H : three_sentences <> []) by discriminate.
  destruct (filter_sentences_keeps_one three_sentences 5 true H)
    as (Hsel & _ & _).
  split; [exact H|]. split; [exact Hsel|]. discriminate.
Defined.

(** C2 as stated fails after a sentence of no tokens: the selection then
    holds one line and [0 + 10] exceeds the budget [5], yet the loop appends
    the second sentence, where the rule in the specification's words
    stops. *)
Lemma greedy_rule_counterexample :
  filter_sentences zero_then_long 5 false = "a b" /\
  spec_filter zero_then_long 5 false = "a" /\
  for_loop [mkSentence 10 "b"] 5 ["a"] 0 = (["a"; "b"], 10) /\
  spec_loop [mkSentence 10 "b"] 5 ["a"] 0 = (["a"], 0).
Proof.
  repeat split.
Qed.

Lemma greedy_rule_witness :
  exists k : nat,
    (k <= 3)%nat /\
    fst (for_loop three_sentences 6 [] 0) = map str (firstn k three_sentences).
Proof.
  destruct (greedy_rule three_sentences 6 false) as (k & Hk & E & _).
  exists k. split; [exact Hk | exact E].
Defined.

(** C3 as stated fails when the selection is numbered in document order:
    with the budget [5] and [src] the loop takes the sentence of no tokens
    and then, the word count still being zero, the sentence of ten words
    before it; the output is both sentences and the first of them in the
    document has ten words, more than the budget. *)
Lemma budget_before_last_counterexample :
  0 <= 5 /\
  filter_sentences long_then_zero 5 true = "a b" /\
  (1 < List.length (selected long_then_zero 5 true))%nat /\
  total_words (removelast (selected long_then_zero 5 true)) = 10 /\
  ~ total_words (removelast (selected long_then_zero 5 true)) <= 5.
Proof.
  split; [lia|]. split; [reflexivity|].
  split; [vm_compute; repeat constructor|].
  split; [reflexivity|]. vm_compute. intros H. apply H. reflexivity.
Qed.

Lemma budget_before_last_witness :
  0 <= 6 /\
  (1 < List.length (selection (candidates three_sentences true) 6))%nat /\
  total_words (removelast (selection (candidates three_sentences true) 6)) <= 6.
Proof.
  assert (H0 : 0 <= 6) by lia.
  assert (H1 : (1 < List.length
                      (selection (candidates three_sentences true) 6))%nat)
    by (vm_compute; repeat constructor).
  split; [exact H0|]. split; [exact H1|].
  exact (budget_before_last three_sentences 6 true H0 H1).
Defined.

Lemma filter_sentences_saturated_witness :
  total_words three_sentences <= 20 /\
  filter_sentences three_sentences 20 true =
    join " " (map str three_sentences).
Proof.
  assert (H : total_words three_sentences <= 20) by (vm_compute; discriminate).
  split; [exact H|].
  exact (filter_sentences_saturated three_sentences 20 true H).
Defined.

Lemma budget_all_positive_witness :
  Forall (fun s => (0 < len s)%nat) three_sentences /\
  (1 < List.length (selected three_sentences 6 true))%nat /\
  total_words (selected three_sentences 6 true) <= 6.
Proof.
  assert (H0 : Forall (fun s => (0 < len s)%nat) three_sentences)
    by (repeat constructor).
  assert (H1 : (1 < List.length (selected three_sentences 6 true))%nat)
    by (vm_compute; repeat constructor).
  split; [exact H0|]. split; [exact H1|].
  exact (budget_all_positive three_sentences 6 true H0 H1).
Defined.

(** C9 as stated fails for a generator argument, which is what [main]
    passes: the call has an effect on it.  Without [src] and with the budget
    [5] the first sentence is selected and the second ends the loop; both
    are gone from the generator afterwards, and a second call on it returns
    another string. *)
Lemma generator_consumed_counterexample :
  let generator := PyGen (map of_sentence three_sentences) in
  let first_call := py_filter_sentences generator 5 false in
  fst first_call = Returned "The cat sat." /\
  snd first_call = PyGen [of_sentence (mkSentence 3 "Birds flew by.")] /\
  snd first_call <> generator /\
  fst (py_filter_sentences (snd first_call) 5 false) =
    Returned "Birds flew by.".
Proof.
  repeat split. discriminate.
Qed.

Example object_without_length :
  fst (py_filter_sentences (PyList [VObj None "x"]) 5 false) = Raised TypeError.
Proof. reflexivity. Qed.

Example strings_as_sentences :
  fst (py_filter_sentences (PyList [VStr "ab"; VStr "cde"; VStr "f"]) 5 true) =
    Returned "cde f".
Proof. reflexivity. Qed.

Lemma row_validation_witness :
  data_rows false [["a"; "b"]; ["only one field"]] =
    [["a"; "b"]] ++ ["only one field"] :: [] /\
  Forall two_cols [["a"; "b"]] /\
  List.length ["only one field"] <> 2%nat /\
  main_rows one_sentence 5 false [["a"; "b"]; ["only one field"]] =
    ([["a"; "b"]],
     Some (AssertionError "Expected 2 cols (src, tgt). Received: 1")).
Proof.
  assert (H0 : data_rows false [["a"; "b"]; ["only one field"]] =
               [["a"; "b"]] ++ ["only one field"] :: []) by reflexivity.
  assert (H1 : Forall two_cols [["a"; "b"]]) by (repeat constructor).
  assert (H2 : List.length ["only one field"] <> 2%nat) by (simpl; lia).
  split; [exact H0|]. split; [exact H1|]. split; [exact H2|].
  exact (proj1 (row_validation one_sentence 5 false
                  [["a"; "b"]; ["only one field"]])
               [["a"; "b"]] ["only one field"] [] H0 H1 H2).
Defined.

Lemma row_filtering_witness :
  data_rows true [["source"; "target"]; ["a"; "b"]; ["c"; "d"]] =
    [["a"; "b"]] ++ ["c"; "d"] :: [] /\
  Forall two_cols [["a"; "b"]] /\
  nth_error
    (fst (main_rows one_sentence 5 true
            [["source"; "target"]; ["a"; "b"]; ["c"; "d"]])) 2 =
    Some [filter_sentences (one_sentence "c") 5 true;
          filter_sentences (one_sentence "d") 5 false].
Proof.
  assert (H0 : data_rows true [["source"; "target"]; ["a"; "b"]; ["c"; "d"]] =
               [["a"; "b"]] ++ ["c"; "d"] :: []) by reflexivity.
  assert (H1 : Forall two_cols [["a"; "b"]]) by (repeat constructor).
  split; [exact H0|]. split; [exact H1|].
  exact (row_filtering one_sentence 5 true
           [["source"; "target"]; ["a"; "b"]; ["c"; "d"]]
           [["a"; "b"]] "c" "d" [] H0 H1).
Defined.

(** ** Further properties of the filter *)

Section MoreLoop.

Variable max_words : Z.

(** When every candidate meets the guard at the word count reached before
    it, the loop takes them all. *)
Lemma for_loop_all_taken (cands : list Sentence) :
  forall lines word_count,
    (forall i s, nth_error cands i = Some s ->
       keeps (word_count + total_words (firstn i cands))
             (Z.of_nat (len s)) max_words = true) ->
    for_loop cands max_words lines word_count =
      (lines ++ map str cands, word_count + total_words cands).
Proof.
  induction cands as [|c rest IH]; intros lines wc H; simpl.
  - rewrite app_nil_r, Z.add_0_r. reflexivity.
  - pose proof (H 0%nat c eq_refl) as G. simpl in G.
    rewrite Z.add_0_r in G. rewrite G.
    rewrite IH.
    + rewrite <- app_assoc. simpl. f_equal. lia.
    + intros i s Hs. specialize (H (S i) s Hs).
      cbn [firstn total_words] in H. rewrite Z.add_assoc in H. exact H.
Qed.

(** Selecting again from a selection changes nothing. *)
Lemma selection_idempotent (cands : list Sentence) :
  selection (selection cands max_words) max_words = selection cands max_words.
Proof.
  destruct (for_loop_rule max_words cands [] 0) as (k & Hk & E & Htaken & _).
  assert (Hsel : selection cands max_words = firstn k cands).
  { unfold selection. rewrite E. simpl.
    rewrite length_map, length_firstn, Nat.min_l by lia. reflexivity. }
  rewrite Hsel. unfold selection at 1.
  rewrite for_loop_all_taken.
  - simpl. rewrite length_map. apply firstn_all.
  - intros i s Hs.
    rewrite nth_error_firstn in Hs.
    destruct (i <? k)%nat eqn:L; [|discriminate].
    apply Nat.ltb_lt in L.
    rewrite firstn_firstn, Nat.min_l by lia.
    apply Htaken; [exact L | exact Hs].
Qed.

(** Once the word count is non-zero and above the budget, the loop takes
    nothing more. *)
Lemma for_loop_over_budget (cands : list Sentence) (lines : list string)
    (word_count : Z) :
  word_count <> 0 -> max_words < word_count ->
  for_loop cands max_words lines word_count = (lines, word_count).
Proof.
  intros Hnz Hover. destruct cands as [|c rest]; simpl; [reflexivity|].
  replace (keeps word_count (Z.of_nat (len c)) max_words) with false;
    [reflexivity|].
  symmetry. apply keeps_false_iff. lia.
Qed.

(** The loop over a concatenation is the loop over its first part,
    continued over the second part when no [break] cut the first short. *)
Lemma for_loop_app (first second : list Sentence) :
  forall lines word_count,
    for_loop (first ++ second) max_words lines word_count =
      let reached := for_loop first max_words lines word_count in
      if (List.length (fst reached) =?
          List.length lines + List.length first)%nat
      then for_loop second max_words (fst reached) (snd reached)
      else reached.
Proof.
  induction first as [|c rest IH]; intros lines wc; simpl.
  - rewrite Nat.add_0_r, Nat.eqb_refl. reflexivity.
  - destruct (keeps wc (Z.of_nat (len c)) max_words).
    + rewrite IH. simpl. rewrite length_app. simpl.
      replace (List.length lines + 1 + List.length rest)%nat
        with (List.length lines + S (List.length rest))%nat by lia.
      reflexivity.
    + simpl.
      replace (List.length lines =? List.length lines + S (List.length rest))%nat
        with false by (symmetry; apply Nat.eqb_neq; lia).
      reflexivity.
Qed.

End MoreLoop.

Lemma selection_monotone (cands : list Sentence) (max_words max_words' : Z) :
  max_words <= max_words' ->
  exists more : list Sentence,
    selection cands max_words' = selection cands max_words ++ more.
Proof.
  intros Hle.
  destruct (selection_rule max_words cands) as (k & Hk & -> & Htaken & _).
  destruct (selection_rule max_words' cands) as (k' & Hk' & -> & _ & Hnext').
  assert (Hkk : (k <= k')%nat).
  { destruct (Nat.le_gt_cases k k') as [L | L]; [exact L|].
    destruct (nth_error_in_range cands k') as [s Hs]; [lia|].
    destruct (Hnext' s Hs) as [Hnz Hover].
    destruct (Htaken k' s L Hs); lia. }
  exists (skipn k (firstn k' cands)).
  rewrite <- (firstn_skipn k (firstn k' cands)) at 1.
  rewrite firstn_firstn, Nat.min_l by exact Hkk. reflexivity.
Qed.

(** X1: raising the budget never drops a sentence: under a larger
    [max_words] the selection for the head extends the smaller one at its
    end, and the selection for the tail extends it at its front. *)
Theorem budget_monotone (sentences : list Sentence) (max_words max_words' : Z) :
  max_words <= max_words' ->
  (exists more : list Sentence,
      selected sentences max_words' false =
        selected sentences max_words false ++ more) /\
  (exists more : list Sentence,
      selected sentences max_words' true =
        more ++ selected sentences max_words true).
Proof.
  intros Hle. unfold selected, candidates. split.
  - apply selection_monotone. exact Hle.
  - destruct (selection_monotone (rev sentences) _ _ Hle) as [more ->].
    exists (rev more). apply rev_app_distr.
Qed.

(** X2: filtering is idempotent: filtering the sentences that were selected
    again, with the same budget and direction, returns the same string. *)
Theorem filter_sentences_idempotent (sentences : list Sentence)
    (max_words : Z) (src : bool) :
  filter_sentences (selected sentences max_words src) max_words src =
  filter_sentences sentences max_words src.
Proof.
  rewrite (filter_sentences_selected sentences).
  rewrite filter_sentences_selected. f_equal. f_equal.
  unfold selected, candidates. destruct src.
  - rewrite rev_involutive, selection_idempotent. reflexivity.
  - apply selection_idempotent.
Qed.

(** X3: the budget is exceeded by one sentence only: for a non-empty
    sequence, either the words selected are at most [max_words], or all of
    them belong to a single selected sentence. *)
Theorem overshoot_single_sentence (sentences : list Sentence)
    (max_words : Z) (src : bool) :
  sentences <> [] ->
  total_words (selected sentences max_words src) <= max_words \/
  exists s : Sentence,
    In s (selected sentences max_words src) /\
    total_words (selected sentences max_words src) = Z.of_nat (len s).
Proof.
  intros Hne.
  assert (Hc : candidates sentences src <> []).
  { unfold candidates. destruct src; [|exact Hne].
    intros E. apply Hne. rewrite <- (rev_involutive sentences), E. reflexivity. }
  assert (H : total_words (selection (candidates sentences src) max_words)
                <= max_words \/
              exists s : Sentence,
                In s (selection (candidates sentences src) max_words) /\
                total_words (selection (candidates sentences src) max_words) =
                  Z.of_nat (len s)).
  { destruct (candidates sentences src) as [|c rest] eqn:C; [contradiction|].
    destruct (selection_head max_words c rest) as (more & Hhead & _).
    destruct (selection_rule max_words (c :: rest))
      as (k & Hk & Hsel & Htaken & _).
    destruct k as [|j]; [rewrite Hsel in Hhead; discriminate|].
    destruct (nth_error_in_range (c :: rest) j) as [s Hs]; [lia|].
    rewrite Hsel, (total_words_firstn_S _ j s Hs).
    destruct (Htaken j s) as [E | E]; [lia | exact Hs | | left; exact E].
    right. exists s. split; [|lia].
    apply (nth_error_In _ j). rewrite nth_error_firstn.
    replace (j <? S j)%nat with true by (symmetry; apply Nat.ltb_lt; lia).
    exact Hs. }
  unfold selected. destruct src; [|exact H].
  rewrite total_words_rev. destruct H as [H | (s & Hin & E)]; [left; exact H|].
  right. exists s. split; [apply in_rev; rewrite rev_involutive; exact Hin | exact E].
Qed.

(** X4: sentences beyond the point where the loop stopped are never looked
    at: when not every sentence was selected, sentences added after the
    document (head direction) or before it (tail direction) leave the output
    unchanged. *)
Theorem later_sentences_ignored (sentences more : list Sentence)
    (max_words : Z) (src : bool) :
  (List.length (selected sentences max_words src) < List.length sentences)%nat ->
  filter_sentences (if src then more ++ sentences else sentences ++ more)
                   max_words src =
  filter_sentences sentences max_words src.
Proof.
  intros Hlt.
  assert (Hcut : (List.length
                    (fst (for_loop (candidates sentences src) max_words [] 0))
                  < List.length (candidates sentences src))%nat).
  { rewrite for_loop_selection. simpl. rewrite length_map.
    unfold selected in Hlt. unfold candidates in *.
    destruct src; rewrite ?length_rev in *; exact Hlt. }
  unfold filter_sentences. unfold candidates in Hcut.
  destruct src.
  - rewrite rev_app_distr, for_loop_app. simpl.
    replace (_ =? _)%nat with false
      by (symmetry; apply Nat.eqb_neq; lia).
    reflexivity.
  - rewrite for_loop_app. simpl.
    replace (_ =? _)%nat with false
      by (symmetry; apply Nat.eqb_neq; lia).
    reflexivity.
Qed.

(** X5: an end sentence that has words and alone exceeds the budget is the
    whole output, whatever the other sentences are: the first sentence for
    the head direction, the last for the tail direction. *)
Theorem oversized_end_sentence (c : Sentence) (others : list Sentence)
    (max_words : Z) :
  (0 < len c)%nat ->
  max_words < Z.of_nat (len c) ->
  filter_sentences (c :: others) max_words false = str c /\
  filter_sentences (others ++ [c]) max_words true = str c.
Proof.
  intros Hpos Hover.
  assert (H : forall rest, for_loop (c :: rest) max_words [] 0 =
                           ([str c], Z.of_nat (len c))).
  { intros rest. cbn [for_loop].
    replace (keeps 0 (Z.of_nat (len c)) max_words) with true by reflexivity.
    apply for_loop_over_budget; simpl; lia. }
  unfold filter_sentences. split.
  - rewrite H. reflexivity.
  - rewrite rev_app_distr.
    change (rev [c] ++ rev others) with (c :: rev others).
    rewrite H. reflexivity.
Qed.

Lemma Forall_take {A : Type} (P : A -> Prop) (l : list A) :
  forall n : nat, Forall P l -> Forall P (firstn n l).
Proof.
  induction l as [|a l IH]; intros [|n] H; simpl; try constructor;
    inversion H; subst; auto.
Qed.

Lemma total_words_ge_length (l : list Sentence) :
  Forall (fun s => (0 < len s)%nat) l ->
  Z.of_nat (List.length l) <= total_words l.
Proof.
  induction 1 as [|s rest Hs _ IH]; simpl List.length; cbn [total_words]; lia.
Qed.

(** X6: with sentences of at least one word each, the output holds at most
    [max_words] sentences, and at most one when [max_words] is below 1. *)
Theorem selected_count_bound (sentences : list Sentence) (max_words : Z)
    (src : bool) :
  Forall (fun s => (0 < len s)%nat) sentences ->
  Z.of_nat (List.length (selected sentences max_words src)) <= Z.max 1 max_words.
Proof.
  intros Hpos.
  assert (Hcands : Forall (fun s => (0 < len s)%nat) (candidates sentences src))
    by (unfold candidates; destruct src; auto using Forall_rev).
  assert (E : List.length (selected sentences max_words src) =
              List.length (selection (candidates sentences src) max_words))
    by (unfold selected; destruct src; [apply length_rev | reflexivity]).
  rewrite E.
  destruct (selection_rule max_words (candidates sentences src))
    as (k & Hk & -> & Htaken & _).
  rewrite length_firstn, Nat.min_l by exact Hk.
  destruct k as [|[|j]]; [lia | lia |].
  destruct (nth_error_in_range (candidates sentences src) (S j)) as [s Hs]; [lia|].
  assert (Hs' : (0 < len s)%nat).
  { apply nth_error_In in Hs. rewrite Forall_forall in Hcands. auto. }
  pose proof (total_words_ge_length (firstn (S j) (candidates sentences src))
                (Forall_take _ _ _ Hcands)) as Hge.
  rewrite length_firstn, Nat.min_l in Hge by lia.
  destruct (Htaken (S j) s) as [T | T]; [lia | exact Hs | lia | lia].
Qed.

(** ** Further properties of the record pipeline *)

Section MorePipeline.

Variable nlp : string -> list Sentence.
Variable max_words : Z.

(** What was written before the loop is carried through untouched. *)
Lemma process_rows_written (rows : list row) :
  forall before written : list row,
    process_rows nlp max_words rows (before ++ written) =
      (before ++ fst (process_rows nlp max_words rows written),
       snd (process_rows nlp max_words rows written)).
Proof.
  induction rows as [|r rows IH]; intros before written; simpl.
  - reflexivity.
  - destruct (negb (List.length r =? 2)%nat); [reflexivity|].
    rewrite <- app_assoc. apply IH.
Qed.

(** The records the loop writes are records of two columns, at most one per
    row. *)
Lemma process_rows_records (rows : list row) :
  forall written : list row,
  exists records : list row,
    fst (process_rows nlp max_words rows written) = written ++ records /\
    Forall two_cols records /\
    (List.length records <= List.length rows)%nat.
Proof.
  induction rows as [|r rows IH]; intros written; simpl.
  - exists []. rewrite app_nil_r. repeat split; auto.
  - destruct (negb (List.length r =? 2)%nat).
    + exists []. rewrite app_nil_r. simpl. repeat split; auto. lia.
    + destruct (IH (written ++ [filtered_record nlp max_words r]))
        as (records & E & Hall & Hlen).
      exists (filtered_record nlp max_words r :: records).
      rewrite E, <- app_assoc. simpl. repeat split; auto; [|lia].
      constructor; [reflexivity | exact Hall].
Qed.

(** X7: the row loop works as a stream: over a concatenated input it does
    what it does over the first part and, when that raised no error, goes
    on over the second part from the output reached; after an error nothing
    of the second part is read. *)
Theorem process_rows_concat (first second written : list row) :
  process_rows nlp max_words (first ++ second) written =
    match process_rows nlp max_words first written with
    | (reached, None) => process_rows nlp max_words second reached
    | (reached, Some e) => (reached, Some e)
    end.
Proof.
  revert written. induction first as [|r first IH]; intros written; simpl.
  - reflexivity.
  - destruct (negb (List.length r =? 2)%nat); [reflexivity | apply IH].
Qed.

(** X8: whatever the input, every record the pipeline writes after the
    header has exactly two columns, and there is at most one record per
    data row. *)
Theorem written_records_two_cols (hasheader : bool) (rows : list row) :
  exists records : list row,
    fst (main_rows nlp max_words hasheader rows) =
      header_written hasheader rows ++ records /\
    Forall two_cols records /\
    (List.length records <= List.length (data_rows hasheader rows))%nat.
Proof.
  unfold main_rows. apply process_rows_records.
Qed.

(** X9: with [hasheader] the first row is taken off the input and the rest
    is processed exactly as an input without header: a first row that is
    not empty is written as it is, whatever its column count, in front of
    that output; an empty first row is dropped; the error, if any, is the
    one of the rest. *)
Theorem header_passthrough (headers : row) (data : list row) :
  main_rows nlp max_words true (headers :: data) =
    ((if is_empty headers then [] else [headers]) ++
       fst (main_rows nlp max_words false data),
     snd (main_rows nlp max_words false data)).
Proof.
  unfold main_rows. simpl.
  rewrite <- (app_nil_r (if is_empty headers then [] else [headers])) at 1.
  apply process_rows_written.
Qed.

End MorePipeline.

(** X10: the error message tells the column count apart: two rows rejected
    with the same error have the same number of columns. *)
Theorem col_error_injective (n m : nat) :
  col_error n = col_error m -> n = m.
Proof.
  unfold col_error, format_int. intros H.
  injection H as H.
  assert (E : NilEmpty.string_of_uint (Nat.to_uint n) =
              NilEmpty.string_of_uint (Nat.to_uint m)).
  { revert H. generalize (NilEmpty.string_of_uint (Nat.to_uint n)).
    generalize (NilEmpty.string_of_uint (Nat.to_uint m)).
    intros a b H. simpl in H. congruence. }
  apply (f_equal NilEmpty.uint_of_string) in E.
  rewrite !NilEmpty.usu in E. injection E as E.
  apply Unsigned.to_uint_inj. exact E.
Qed.

(** ** Flag values *)

Lemma isspace_lower_char (c : ascii) : isspace (lower_char c) = isspace c.
Proof.
  destruct c as [[] [] [] [] [] [] [] []]; reflexivity.
Qed.

Lemma lower_char_idempotent (c : ascii) :
  lower_char (lower_char c) = lower_char c.
Proof.
  destruct c as [[] [] [] [] [] [] [] []]; reflexivity.
Qed.

Lemma lower_idempotent (s : string) : lower (lower s) = lower s.
Proof.
  induction s as [|c s IH]; simpl; [reflexivity|].
  rewrite lower_char_idempotent, IH. reflexivity.
Qed.

Lemma lower_app (s t : string) :
  lower (s ++ t) = (lower s ++ lower t)%string.
Proof.
  induction s as [|c s IH]; simpl; [reflexivity | rewrite IH; reflexivity].
Qed.

Lemma all_space_lower (s : string) : all_space (lower s) = all_space s.
Proof.
  induction s as [|c s IH]; simpl; [reflexivity|].
  rewrite isspace_lower_char, IH. reflexivity.
Qed.

Lemma rstrip_all_space (ws : string) :
  all_space ws = true -> rstrip ws = EmptyString.
Proof.
  induction ws as [|c ws IH]; simpl; [reflexivity|].
  intros H. apply andb_true_iff in H. destruct H as [Hc Hws].
  rewrite (IH Hws), Hc. reflexivity.
Qed.

Lemma rstrip_app_space (s ws : string) :
  all_space ws = true -> rstrip (s ++ ws) = rstrip s.
Proof.
  intros H. induction s as [|c s IH]; simpl.
  - apply rstrip_all_space. exact H.
  - rewrite IH. reflexivity.
Qed.

Lemma strip_cons_space (c : ascii) (s : string) :
  isspace c = true -> strip (String c s) = strip s.
Proof.
  intros Hc. unfold strip. simpl rstrip.
  destruct (rstrip s) as [|a kept]; simpl; rewrite Hc; reflexivity.
Qed.

Lemma strip_space_app (ws s : string) :
  all_space ws = true -> strip (ws ++ s) = strip s.
Proof.
  induction ws as [|c ws IH]; simpl; [reflexivity|].
  intros H. apply andb_true_iff in H. destruct H as [Hc Hws].
  rewrite strip_cons_space by exact Hc. apply IH. exact Hws.
Qed.

Lemma strip_app_space (s ws : string) :
  all_space ws = true -> strip (s ++ ws) = strip s.
Proof.
  intros H. unfold strip. rewrite rstrip_app_space by exact H. reflexivity.
Qed.

(** X11: [str2bool] looks past surrounding whitespace and letter case: a
    value padded with whitespace on either side, and a value put in lower
    case, get the answer of the value itself. *)
Theorem str2bool_padding_and_case (before after val : string) :
  all_space before = true ->
  all_space after = true ->
  str2bool (Some (before ++ val ++ after)%string) = str2bool (Some val) /\
  str2bool (Some (lower val)) = str2bool (Some val).
Proof.
  intros Hb Ha. unfold str2bool. split.
  - rewrite !lower_app.
    rewrite strip_space_app by (rewrite all_space_lower; exact Hb).
    rewrite strip_app_space by (rewrite all_space_lower; exact Ha).
    reflexivity.
  - rewrite lower_idempotent. reflexivity.
Qed.

(** X12: for a value that is empty or whitespace only, [str2bool] returns
    neither [True] nor [False] but [None]; only a missing value ([None])
    is answered [False] outright. *)
Theorem str2bool_blank (val : string) :
  all_space val = true ->
  str2bool (Some val) = None /\ str2bool None = Some false.
Proof.
  intros H. unfold str2bool, strip.
  rewrite rstrip_all_space by (rewrite all_space_lower; exact H).
  split; reflexivity.
Qed.

(** ** Instances of the further properties *)

Example str2bool_spellings :
  str2bool (Some " Yes ") = Some true /\
  str2bool (Some "OFF") = Some false /\
  str2bool (Some "False") = Some false /\
  str2bool (Some "maybe") = None.
Proof. repeat split. Qed.

Lemma budget_monotone_witness :
  5 <= 6 /\
  (exists more : list Sentence,
      selected three_sentences 6 true =
        more ++ selected three_sentences 5 true).
Proof.
  assert (H : 5 <= 6) by lia.
  split; [exact H|].
  exact (proj2 (budget_monotone three_sentences 5 6 H)).
Defined.

Lemma overshoot_single_sentence_witness :
  long_sentence <> [] /\
  (total_words (selected long_sentence 5 false) <= 5 \/
   exists s : Sentence,
     In s (selected long_sentence 5 false) /\
     total_words (selected long_sentence 5 false) = Z.of_nat (len s)).
Proof.
  assert (H : long_sentence <> []) by discriminate.
  split; [exact H|].
  exact (overshoot_single_sentence long_sentence 5 false H).
Defined.

Lemma later_sentences_ignored_witness :
  (List.length (selected three_sentences 5 false)
   < List.length three_sentences)%nat /\
  filter_sentences (three_sentences ++ long_sentence) 5 false =
  filter_sentences three_sentences 5 false.
Proof.
  assert (H : (List.length (selected three_sentences 5 false)
               < List.length three_sentences)%nat)
    by (vm_compute; repeat constructor).
  split; [exact H|].
  exact (later_sentences_ignored three_sentences long_sentence 5 false H).
Defined.

Lemma oversized_end_sentence_witness :
  (0 < len (mkSentence 30 "Averylongsentence"))%nat /\
  5 < Z.of_nat (len (mkSentence 30 "Averylongsentence")) /\
  filter_sentences (mkSentence 30 "Averylongsentence" :: three_sentences)
                   5 false = "Averylongsentence" /\
  filter_sentences (three_sentences ++ [mkSentence 30 "Averylongsentence"])
                   5 true = "Averylongsentence".
Proof.
  assert (H0 : (0 < len (mkSentence 30 "Averylongsentence"))%nat)
    by (simpl; lia).
  assert (H1 : 5 < Z.of_nat (len (mkSentence 30 "Averylongsentence")))
    by (simpl; lia).
  split; [exact H0|]. split; [exact H1|].
  exact (oversized_end_sentence (mkSentence 30 "Averylongsentence")
           three_sentences 5 H0 H1).
Defined.

Lemma selected_count_bound_witness :
  Forall (fun s => (0 < len s)%nat) three_sentences /\
  Z.of_nat (List.length (selected three_sentences 6 false)) <= Z.max 1 6.
Proof.
  assert (H : Forall (fun s => (0 < len s)%nat) three_sentences)
    by (repeat constructor).
  split; [exact H|].
  exact (selected_count_bound three_sentences 6 false H).
Defined.

Lemma col_error_injective_witness :
  col_error 3 = col_error 3 /\ 3%nat = 3%nat.
Proof.
  assert (H : col_error 3 = col_error 3) by reflexivity.
  split; [exact H|].
  exact (col_error_injective 3 3 H).
Defined.

Lemma str2bool_padding_and_case_witness :
  all_space "  " = true /\ all_space " " = true /\
  str2bool (Some ("  " ++ "Yes" ++ " ")%string) = str2bool (Some "Yes") /\
  str2bool (Some (lower "Yes")) = str2bool (Some "Yes").
Proof.
  assert (H0 : all_space "  " = true) by reflexivity.
  assert (H1 : all_space " " = true) by reflexivity.
  split; [exact H0|]. split; [exact H1|].
  exact (str2bool_padding_and_case "  " " " "Yes" H0 H1).
Defined.

Lemma str2bool_blank_witness :
  all_space "  " = true /\
  str2bool (Some "  ") = None /\ str2bool None = Some false.
Proof.
  assert (H : all_space "  " = true) by reflexivity.
  split; [exact H|].
  exact (str2bool_blank "  " H).
Defined.
